(** * bigquery-manager: the query manager, embedded and verified

    A shallow embedding of [src/bigquery_manager/manager.py].  The manager
    is dynamically typed Python wrapped around an external warehouse
    client, so the development has three layers:

    - [Py]: the fragment of Python's value universe and built-in
      operations that the manager exercises (truthiness, iteration,
      [dict.get], subscripting, [str.join], f-string formatting);
    - [Manager]: the methods of [BigQueryManager], written in an
      exception-and-state monad over a world made of the wrapped
      client's own state and the log of calls made on it, with the
      client library's configuration constructor as a parameter;
    - the theorems, one per claim of the specification. *)

From Stdlib Require Import Ascii String.
From stdpp Require Import gmap strings list fin_maps pretty.

Local Open Scope Z_scope.

(** ** Python values *)

Module Py.

(** The values a caller can hand to the manager.  A [str] is a
    [string] with one [ascii] per code point (code points below 256); a
    [dict] keeps its items in insertion order and has [str] keys, which is
    all the manager ever looks up.  Floats are left out: the manager only
    forwards them. *)
#[warning="-register-all"]
Inductive pyval : Type :=
  | VNone
  | VBool (b : bool)
  | VInt (z : Z)
  | VStr (s : string)
  | VList (items : list pyval)
  | VTuple (items : list pyval)
  | VDict (entries : list (string * pyval)).

(** Exceptions.  [RuntimeError] carries its argument; [ClientError] is
    whatever the wrapped client raises from inside one of its own entry
    points. *)
Inductive exn : Type :=
  | TypeError
  | AttributeError
  | IndexError
  | KeyError
  | RuntimeError (arg : pyval)
  | ClientError (e : pyval).

Inductive outcome (A : Type) : Type :=
  | Ok (a : A)
  | Raise (e : exn).
Arguments Ok {A} a.
Arguments Raise {A} e.

#[global] Instance outcome_ret : MRet outcome := @Ok.
#[global] Instance outcome_bind : MBind outcome := λ A B f m,
  match m with
  | Ok a => f a
  | Raise e => Raise e
  end.

(** [bool(v)]. *)
Definition truthy (v : pyval) : bool :=
  match v with
  | VNone => false
  | VBool b => b
  | VInt z => negb (z =? 0)
  | VStr s => negb (String.eqb s "")
  | VList items | VTuple items => negb (bool_decide (items = []))
  | VDict entries => negb (bool_decide (entries = []))
  end.

(** [isinstance(v, list)]. *)
Definition isinstance_list (v : pyval) : bool :=
  match v with
  | VList _ => true
  | _ => false
  end.

(** [a or b]. *)
Definition py_or (a b : pyval) : pyval := if truthy a then a else b.

(** The characters of a [str], each as a [str] of length one. *)
Fixpoint chars (s : string) : list pyval :=
  match s with
  | EmptyString => []
  | String c s' => VStr (String c EmptyString) :: chars s'
  end.

(** What [for x in v] (and [iter(v)]) runs through. *)
Definition py_iter (v : pyval) : outcome (list pyval) :=
  match v with
  | VList items | VTuple items => Ok items
  | VStr s => Ok (chars s)
  | VDict entries => Ok (VStr <$> entries.*1)
  | VNone | VBool _ | VInt _ => Raise TypeError
  end.

(** [next(iter(v), None)]. *)
Definition py_next_or_none (v : pyval) : outcome pyval :=
  items ← py_iter v; mret (default VNone (head items)).

Fixpoint dict_lookup (key : string) (entries : list (string * pyval)) : option pyval :=
  match entries with
  | [] => None
  | (k, v) :: rest => if String.eqb k key then Some v else dict_lookup key rest
  end.

(** [v.get(key)]: only a [dict] has the method. *)
Definition py_get (v : pyval) (key : string) : outcome pyval :=
  match v with
  | VDict entries => Ok (default VNone (dict_lookup key entries))
  | _ => Raise AttributeError
  end.

(** [v[0]]. *)
Definition py_getitem0 (v : pyval) : outcome pyval :=
  match v with
  | VList items | VTuple items =>
      match items with
      | x :: _ => Ok x
      | [] => Raise IndexError
      end
  | VStr s =>
      match s with
      | String c _ => Ok (VStr (String c EmptyString))
      | EmptyString => Raise IndexError
      end
  | VDict _ => Raise KeyError
  | VNone | VBool _ | VInt _ => Raise TypeError
  end.

(** [sep.join(parts)]. *)
Fixpoint py_join (sep : string) (parts : list string) : string :=
  match parts with
  | [] => ""
  | [p] => p
  | p :: rest => p +:+ sep +:+ py_join sep rest
  end.

(** *** [repr] and [str] *)

Definition hex_digit (n : N) : ascii :=
  match n with
  | 0 => "0" | 1 => "1" | 2 => "2" | 3 => "3" | 4 => "4" | 5 => "5"
  | 6 => "6" | 7 => "7" | 8 => "8" | 9 => "9" | 10 => "a" | 11 => "b"
  | 12 => "c" | 13 => "d" | 14 => "e" | _ => "f"
  end%N%char.

Definition hex_escape (c : ascii) : string :=
  let n := N_of_ascii c in
  String "\" (String "x" (String (hex_digit (n / 16)) (String (hex_digit (n mod 16)) ""))).

(** Code points below 256 that [repr] writes as they are. *)
Definition printable (c : ascii) : bool :=
  let n := N_of_ascii c in
  ((32 <=? n) && (n <? 127) || (161 <=? n) && negb (n =? 173))%N.

Fixpoint has_char (c : ascii) (s : string) : bool :=
  match s with
  | EmptyString => false
  | String d s' => Ascii.eqb c d || has_char c s'
  end.

Definition repr_quote (s : string) : ascii :=
  if has_char "'" s && negb (has_char "034" s) then "034"%char else "'"%char.

Definition repr_char (quote c : ascii) : string :=
  if Ascii.eqb c quote || Ascii.eqb c "\" then String "\" (String c "")
  else if Ascii.eqb c "009" then "\t"
  else if Ascii.eqb c "010" then "\n"
  else if Ascii.eqb c "013" then "\r"
  else if printable c then String c ""
  else hex_escape c.

Fixpoint repr_body (quote : ascii) (s : string) : string :=
  match s with
  | EmptyString => ""
  | String c s' => repr_char quote c +:+ repr_body quote s'
  end.

Definition repr_str (s : string) : string :=
  let q := repr_quote s in
  String q (repr_body q s +:+ String q "").

Fixpoint py_repr (v : pyval) : string :=
  match v with
  | VNone => "None"
  | VBool true => "True"
  | VBool false => "False"
  | VInt z => pretty z
  | VStr s => repr_str s
  | VList items => "[" +:+ py_join ", " (map py_repr items) +:+ "]"
  | VTuple [x] => "(" +:+ py_repr x +:+ ",)"
  | VTuple items => "(" +:+ py_join ", " (map py_repr items) +:+ ")"
  | VDict entries =>
      "{" +:+ py_join ", " (map (λ kv, repr_str kv.1 +:+ ": " +:+ py_repr kv.2) entries) +:+ "}"
  end.

(** [str(v)], which is also what an f-string field [{v}] inserts. *)
Definition py_str (v : pyval) : string :=
  match v with
  | VStr s => s
  | _ => py_repr v
  end.

End Py.

(** ** The manager *)

Module Manager.
Import Py.

(** [ScalarQueryParameter(name, type_, value)] of the client library. *)
Record ScalarQueryParameter : Type :=
  { name : pyval; type_ : pyval; value : pyval }.

(** A keyword option of a query job: a value supplied by the caller, or a
    list of bound parameters. *)
Inductive option_value : Type :=
  | OptValue (v : pyval)
  | OptParameters (ps : list ScalarQueryParameter).

(** A [QueryJobConfig] keeps the keyword options it was built from. *)
Record QueryJobConfig : Type :=
  { properties : gmap string option_value }.

(** The constructor of [QueryJobConfig] belongs to the client library,
    which sets the options one attribute at a time and raises on those it
    does not accept (an unknown name gives [AttributeError]).  Which
    options it accepts is the library's business: [config_error] tells
    what the constructor raises on a set of options, if anything.  One
    thing is known of it: it accepts [query_parameters] alone, holding one
    text parameter of type [STRING]. *)
Record Library : Type :=
  { config_error : gmap string option_value → option exn;
    config_text_parameter : ∀ n v : string,
      config_error
        {[ "query_parameters" :=
             OptParameters [{| name := VStr n; type_ := VStr "STRING"; value := VStr v |}] ]}
      = None }.

(** The calls the manager makes on [self.client], as a mock would record
    them. *)
Inductive call : Type :=
  | CallQuery (query : string) (job_config : option QueryJobConfig)
  | CallGetTable (table : string)
  | CallInsertRows (table data selected_fields : pyval) (kwargs : gmap string pyval).

(** What an entry point of the wrapped client does: it returns, or it
    raises an error of its own. *)
Inductive client_result (A : Type) : Type :=
  | Returns (a : A)
  | Raises (e : pyval).
Arguments Returns {A} a.
Arguments Raises {A} e.

Definition from_client {A} (r : client_result A) : outcome A :=
  match r with
  | Returns a => Ok a
  | Raises e => Raise (ClientError e)
  end.

(** *** Static helpers *)

(** [__generate_invoke_sql] *)
Definition generate_invoke_sql (sp : string) (params : pyval) : outcome string :=
  items ← py_iter (py_or params (VList []));
  let placeholders := py_join ", " (map (λ _, "?") items) in
  mret ("CALL `" +:+ sp +:+ "`(" +:+ placeholders +:+ ");").

(** One element of the comprehension in [__generate_select_sql]. *)
Definition filter_term (col : pyval) : outcome string :=
  n1 ← py_get col "name";
  n2 ← py_get col "name";
  mret (py_str n1 +:+ " = @" +:+ py_str n2).

(** [__generate_select_sql] *)
Definition generate_select_sql (table select : string) (filters : pyval) : outcome string :=
  let sql := "SELECT " +:+ select +:+ " FROM `" +:+ table +:+ "`" in
  if isinstance_list filters && truthy filters then
    cols ← py_iter filters;
    query_filter ← mapM filter_term cols;
    mret (sql +:+ " WHERE " +:+ py_join " AND " query_filter +:+ ";")
  else mret (sql +:+ ";").

(** One element of the comprehension in [__convert_params]. *)
Definition convert_param (param : pyval) : outcome ScalarQueryParameter :=
  n ← py_get param "name";
  t ← py_get param "type";
  v ← py_get param "value";
  mret {| name := n; type_ := t; value := v |}.

(** [__convert_params] *)
Definition convert_params (params : pyval) : outcome (option (list ScalarQueryParameter)) :=
  if truthy params then
    items ← py_iter params;
    ps ← mapM convert_param items;
    mret (Some ps)
  else mret None.

(** [__set_job_config] *)
Definition set_job_config (lib : Library) (job_configs : gmap string option_value)
    : outcome (option QueryJobConfig) :=
  if decide (job_configs = ∅) then Ok None
  else match config_error lib job_configs with
       | None => Ok (Some {| properties := job_configs |})
       | Some e => Raise e
       end.

(** [get_one_result] *)
Definition get_one_result (query_res : pyval) : outcome pyval :=
  row ← py_next_or_none query_res;
  if truthy row then py_getitem0 row else mret VNone.

(** What [job_configs['query_parameters'] = ...] stores. *)
Definition stored_parameters (ps : option (list ScalarQueryParameter)) : option_value :=
  match ps with
  | Some ps => OptParameters ps
  | None => OptValue VNone
  end.

(** *** Methods that reach the client *)

Section WithClient.
Context {St : Type}.

(** The job [client.query] returns; [result] blocks for its rows. *)
Record QueryJob : Type :=
  { result : St → client_result pyval * St }.

(** The three entry points of the wrapped client the manager uses, each a
    transition on the client's own state. *)
Record Client : Type :=
  { client_query : string → option QueryJobConfig → St → client_result QueryJob * St;
    client_get_table : string → St → client_result pyval * St;
    client_insert_rows :
      pyval → pyval → pyval → gmap string pyval → St → client_result pyval * St }.

Record world : Type :=
  { cstate : St; calls : list call }.

(** Computations of the manager: they may raise, and they move the world. *)
Definition M (A : Type) : Type := world → outcome A * world.

#[global] Instance M_ret : MRet M := λ A a w, (Ok a, w).
#[global] Instance M_bind : MBind M := λ A B f m w,
  match m w with
  | (Ok a, w') => f a w'
  | (Raise e, w') => (Raise e, w')
  end.

Definition lift {A} (o : outcome A) : M A := λ w, (o, w).
Definition raise {A} (e : exn) : M A := lift (Raise e).

(** A call on [self.client]: logged, then run on the client's state. *)
Definition call_client {A} (c : call) (f : St → client_result A * St) : M A := λ w,
  let '(r, s) := f (cstate w) in
  (from_client r, {| cstate := s; calls := calls w ++ [c] |}).

(** [job.result()] *)
Definition wait_result (job : QueryJob) : M pyval := λ w,
  let '(r, s) := result job (cstate w) in
  (from_client r, {| cstate := s; calls := calls w |}).

Variable client : Client.
Variable lib : Library.

(** [query] *)
Definition query (sql : string) (params : pyval)
    (job_configs : gmap string option_value) : M pyval :=
  job_configs ← (if truthy params then
                   ps ← lift (convert_params params);
                   mret (<["query_parameters" := stored_parameters ps]> job_configs)
                 else mret job_configs);
  job_config ← lift (set_job_config lib job_configs);
  job ← call_client (CallQuery sql job_config) (client_query client sql job_config);
  wait_result job.

(** [invoke] *)
Definition invoke (sp : string) (params : pyval)
    (job_configs : gmap string option_value) : M pyval :=
  sql ← lift (generate_invoke_sql sp params);
  query sql params job_configs.

(** [select] *)
Definition select (table select : string) (filters : pyval)
    (job_configs : gmap string option_value) : M pyval :=
  sql ← lift (generate_select_sql table select filters);
  query sql filters job_configs.

(** [insert] *)
Definition insert (destination_table : string) (data selected_fields : pyval)
    (kwargs : gmap string pyval) : M pyval :=
  if negb (truthy data) then mret VNone
  else
    table ← call_client (CallGetTable destination_table)
              (client_get_table client destination_table);
    res ← call_client (CallInsertRows table data selected_fields kwargs)
            (client_insert_rows client table data selected_fields kwargs);
    if truthy res then raise (RuntimeError res) else mret VNone.

(** [get_last_id] *)
Definition get_last_id (destination_table : string) : M pyval :=
  last_id ← select destination_table "MAX(Id)" VNone ∅;
  one ← lift (get_one_result last_id);
  mret (py_or one (VInt 0)).

(** [get_service_item] *)
Definition get_service_item (item_table item : string) : M pyval :=
  let item_info :=
    VList [VDict [("name", VStr "item_name"); ("type", VStr "STRING"); ("value", VStr item)]] in
  res ← select item_table "item_value" item_info ∅;
  lift (get_one_result res).

End WithClient.

Arguments QueryJob : clear implicits.
Arguments Client : clear implicits.
Arguments world : clear implicits.

End Manager.

(** ** The texts and relations the specification speaks of

    These follow the words of the specification, not the code: the SQL
    texts are built marker by marker and term by term, and a parameter
    descriptor is described by what its fields hold. *)

Module Spec.
Import Py Manager.

Fixpoint repeat_text (s : string) (n : nat) : string :=
  match n with
  | O => ""
  | S n' => s +:+ repeat_text s n'
  end.

Fixpoint concat_text (parts : list string) : string :=
  match parts with
  | [] => ""
  | p :: rest => p +:+ concat_text rest
  end.

(** [n] positional markers: one [?], then [, ?] for each further one. *)
Definition placeholders (n : nat) : string :=
  match n with
  | O => ""
  | S m => "?" +:+ repeat_text ", ?" m
  end.

Definition call_text (sp : string) (n : nat) : string :=
  "CALL `" +:+ sp +:+ "`(" +:+ placeholders n +:+ ");".

(** The term a filter named [n] contributes. *)
Definition named_term (n : string) : string := n +:+ " = @" +:+ n.

(** The first term, then [ AND ] and a term for each further filter. *)
Definition where_clause (names : list string) : string :=
  match names with
  | [] => ""
  | n :: rest =>
      " WHERE " +:+ named_term n +:+ concat_text ((λ m, " AND " +:+ named_term m) <$> rest)
  end.

Definition select_text (table select : string) (names : list string) : string :=
  "SELECT " +:+ select +:+ " FROM `" +:+ table +:+ "`" +:+ where_clause names +:+ ";".

(** How often the character [c] occurs in [s]. *)
Fixpoint count_char (c : ascii) (s : string) : nat :=
  match s with
  | EmptyString => O
  | String d s' => (if Ascii.eqb c d then 1 else 0)%nat + count_char c s'
  end.

(** [col] is a descriptor whose [name] field is the text [n]. *)
Definition has_name (col : pyval) (n : string) : Prop :=
  ∃ entries, col = VDict entries ∧ dict_lookup "name" entries = Some (VStr n).

(** [p] is the scalar parameter made of the [name], [type] and [value]
    fields of the descriptor [col]. *)
Definition bound_from (col : pyval) (p : ScalarQueryParameter) : Prop :=
  py_get col "name" = Ok (name p) ∧
  py_get col "type" = Ok (type_ p) ∧
  py_get col "value" = Ok (value p).

(** The options a query job is configured from: the caller's, with the
    bound parameters (when there are any) under [query_parameters]. *)
Definition merged_options (ps : option (list ScalarQueryParameter))
    (job_configs : gmap string option_value) : gmap string option_value :=
  match ps with
  | Some l => <["query_parameters" := OptParameters l]> job_configs
  | None => job_configs
  end.

(** The library's constructor takes these options: there are none, so
    that it is not called at all, or it raises on nothing in them. *)
Definition accepted (lib : Library) (options : gmap string option_value) : Prop :=
  options ≠ ∅ → config_error lib options = None.

(** The configuration a query job is handed: none when there are no
    options, and otherwise the one holding them. *)
Definition configuration_of (options : gmap string option_value) : option QueryJobConfig :=
  if decide (options = ∅) then None else Some {| properties := options |}.

End Spec.

(** ** A stand-in client

    The client the repository's tests use: every entry point returns a
    canned value.  Its state counts the entries made. *)

Module Mock.
Import Py Manager.

Definition job (rows : pyval) : QueryJob nat :=
  {| result := λ s, (Returns rows, S s) |}.

Definition client (rows errors : pyval) : Client nat :=
  {| client_query := λ _ _ s, (Returns (job rows), S s);
     client_get_table := λ table s, (Returns (VStr table), S s);
     client_insert_rows := λ _ _ _ _ s, (Returns errors, S s) |}.

(** A stand-in for the library: its constructor takes the options whose
    names it knows, and private names, and raises [AttributeError] on the
    others. *)
Definition known_options : list string :=
  ["allow_large_results"; "create_disposition"; "default_dataset"; "destination";
   "dry_run"; "flatten_results"; "labels"; "maximum_billing_tier";
   "maximum_bytes_billed"; "priority"; "query_parameters"; "use_legacy_sql";
   "use_query_cache"; "write_disposition"].

Definition known_option (k : string) : bool :=
  bool_decide (k ∈ known_options)
  || match k with String "_" _ => true | _ => false end.

Program Definition library : Library :=
  {| config_error := λ job_configs,
       if decide (map_Forall (λ k _, known_option k = true) job_configs)
       then None else Some AttributeError |}.
Next Obligation.
  intros n v. cbv beta.
  destruct (decide (map_Forall (λ k _, known_option k = true) _)) as [|H]; [done |].
  exfalso. apply H. by apply map_Forall_singleton.
Qed.

Definition start : world nat := {| cstate := O; calls := [] |}.

Definition descriptor (n t : string) (v : pyval) : pyval :=
  VDict [("name", VStr n); ("type", VStr t); ("value", v)].

End Mock.

(** ** The client factory

    [src/bigquery_manager/client.py].  Credential resolution and the
    client's constructor belong to the libraries: they are entry points of
    an environment, each a transition on its state, and the calls made on
    them are logged. *)

Module Factory.
Import Py Manager.

Inductive external_call : Type :=
  | CallAuthDefault (scopes : pyval)
  | CallClient (credentials project : pyval).

(** The scopes used when none are given. *)
Definition default_scopes : pyval :=
  VList [VStr "https://www.googleapis.com/auth/drive";
         VStr "https://www.googleapis.com/auth/bigquery";
         VStr "https://www.googleapis.com/auth/cloud-platform"].

Section WithEnvironment.
Context {St : Type}.

(** [google.auth.default(scopes=...)], which returns the credentials and
    the project, and [Client(credentials=..., project=...)]. *)
Record Environment : Type :=
  { auth_default : pyval → St → client_result (pyval * pyval) * St;
    new_client : pyval → pyval → St → client_result pyval * St }.

(** [set_bigquery_client] *)
Definition set_bigquery_client (env : Environment) (scopes : pyval)
    (s : St) (log : list external_call) : outcome pyval * St * list external_call :=
  let scopes := match scopes with VNone => default_scopes | _ => scopes end in
  match auth_default env scopes s with
  | (Raises e, s1) => (Raise (ClientError e), s1, log ++ [CallAuthDefault scopes])
  | (Returns (credentials, project), s1) =>
      let '(r, s2) := new_client env credentials project s1 in
      (from_client r, s2,
       (log ++ [CallAuthDefault scopes]) ++ [CallClient credentials project])
  end.

End WithEnvironment.

Arguments Environment : clear implicits.

End Factory.

(** ** Shapes of the manager's inputs *)

Module Shape.
Import Py Manager.

Definition is_dict (v : pyval) : bool :=
  match v with
  | VDict _ => true
  | _ => false
  end.


(** A client whose table lookup and query entry both raise [e]. *)
Definition failing_client (e : pyval) : Client nat :=
  {| client_query := λ _ _ s, (Raises e, S s);
     client_get_table := λ _ s, (Raises e, S s);
     client_insert_rows := λ _ _ _ _ s, (Returns (VList []), S s) |}.

(** An environment that resolves to fixed credentials, or fails to. *)
Definition ambient (found : bool) : Factory.Environment nat :=
  {| Factory.auth_default := λ _ s,
       (if found then Returns (VStr "credentials", VStr "project")
        else Raises (VStr "DefaultCredentialsError"), S s);
     Factory.new_client := λ credentials project s,
       (Returns (VTuple [credentials; project]), S s) |}.

End Shape.

Import Py Manager Spec.

(** ** Texts *)

#[local] Arguments String.append !_ _ / : simpl nomatch.

Lemma append_assoc (a b c : string) : (a +:+ b) +:+ c = a +:+ b +:+ c.
Proof. induction a as [|x a IH]; simpl; [done | by rewrite IH]. Qed.

Lemma join_markers {A} (x : A) (items : list A) :
  py_join ", " (map (λ _, "?") (x :: items)) = placeholders (S (length items)).
Proof.
  revert x. induction items as [|y items IH]; intros x; [done |].
  change (py_join ", " (map (λ _ : A, "?") (x :: y :: items)))
    with ("?" +:+ ", " +:+ py_join ", " (map (λ _ : A, "?") (y :: items))).
  by rewrite IH.
Qed.

Lemma join_placeholders {A} (items : list A) :
  py_join ", " (map (λ _, "?") items) = placeholders (length items).
Proof. destruct items; [done | apply join_markers]. Qed.

Lemma join_terms (n : string) (rest : list string) :
  py_join " AND " (named_term <$> (n :: rest))
  = named_term n +:+ concat_text ((λ m, " AND " +:+ named_term m) <$> rest).
Proof.
  revert n. induction rest as [|m rest IH]; intros n.
  - simpl. induction (named_term n) as [|c s IHs]; simpl; [done | by rewrite <- IHs].
  - change (py_join " AND " (named_term <$> n :: m :: rest))
      with (named_term n +:+ " AND " +:+ py_join " AND " (named_term <$> m :: rest)).
    by rewrite IH.
Qed.

Lemma count_char_app (c : ascii) (a b : string) :
  count_char c (a +:+ b) = (count_char c a + count_char c b)%nat.
Proof. induction a as [|x a IH]; simpl; [done | rewrite IH; lia]. Qed.

Lemma count_markers (n : nat) : count_char "?" (placeholders n) = n.
Proof.
  destruct n as [|m]; [done |]. simpl. f_equal.
  induction m as [|m IH]; [done |]. simpl. by rewrite IH.
Qed.

(** ** The comprehensions *)

Lemma filter_terms (cols : list pyval) (names : list string) :
  Forall2 has_name cols names → mapM filter_term cols = Ok (named_term <$> names).
Proof.
  induction 1 as [|col n cols names (entries & -> & Hn) _ IH]; [done |].
  cbn [mapM]. rewrite IH. unfold filter_term. simpl. by rewrite Hn.
Qed.

Lemma convert_items (items : list pyval) (ps : list ScalarQueryParameter) :
  Forall2 bound_from items ps → mapM convert_param items = Ok ps.
Proof.
  induction 1 as [|col p items ps (Hn & Ht & Hv) _ IH]; [done |].
  cbn [mapM]. rewrite IH. unfold convert_param. rewrite Hn, Ht, Hv.
  by destruct p.
Qed.

Lemma convert_params_falsy (params : pyval) :
  truthy params = false → convert_params params = Ok None.
Proof. intros H. unfold convert_params. by rewrite H. Qed.

Lemma convert_params_bound (params : pyval) (items : list pyval)
    (ps : list ScalarQueryParameter) :
  truthy params = true → py_iter params = Ok items → Forall2 bound_from items ps →
  convert_params params = Ok (Some ps).
Proof.
  intros Ht Hi Hb. unfold convert_params. rewrite Ht, Hi. simpl.
  by rewrite (convert_items _ _ Hb).
Qed.

(** ** Running the methods *)

Section Runs.
Context {St : Type} (client : Client St) (lib : Library).


Lemma lift_ok {A B} (a : A) (k : A → M B) (w : world St) :
  (lift (Ok a) ≫= k) w = k a w.
Proof. done. Qed.

(** Handing a query to the client logs exactly that call, however the
    client and the job behave. *)
Lemma submit_calls (sql : string) (cfg : option QueryJobConfig) (w : world St) :
  calls ((call_client (CallQuery sql cfg) (client_query client sql cfg)
            ≫= wait_result) w).2
  = calls w ++ [CallQuery sql cfg].
Proof.
  unfold mbind, M_bind, call_client, wait_result.
  destruct (client_query client sql cfg (cstate w)) as [[job|e] s]; simpl; [|done].
  by destruct (result job s) as [[rows|e] s'].
Qed.

(** [query], once its parameters convert, goes on to build the
    configuration of the merged options and to hand the query over. *)
Lemma query_converted (sql : string) (params : pyval)
    (job_configs : gmap string option_value)
    (ps : option (list ScalarQueryParameter)) (w : world St) :
  convert_params params = Ok ps →
  query client lib sql params job_configs w
  = (lift (set_job_config lib (merged_options ps job_configs)) ≫= λ job_config,
     call_client (CallQuery sql job_config) (client_query client sql job_config)
       ≫= wait_result) w.
Proof.
  intros Hc. unfold query.
  destruct (truthy params) eqn:Ht.
  - rewrite Hc.
    assert (∃ l, ps = Some l) as [l ->]; [|done].
    unfold convert_params in Hc. rewrite Ht in Hc.
    destruct (py_iter params) as [items|]; [|done]. simpl in Hc.
    destruct (mapM convert_param items) as [l|]; [|done].
    exists l. by inversion Hc.
  - rewrite (convert_params_falsy _ Ht) in Hc. by inversion Hc.
Qed.

(** When moreover the library builds the configuration, [query] makes
    one call: the literal text with that configuration. *)
Lemma query_calls (sql : string) (params : pyval)
    (job_configs : gmap string option_value)
    (ps : option (list ScalarQueryParameter)) (cfg : option QueryJobConfig)
    (w : world St) :
  convert_params params = Ok ps →
  set_job_config lib (merged_options ps job_configs) = Ok cfg →
  calls (query client lib sql params job_configs w).2 = calls w ++ [CallQuery sql cfg].
Proof.
  intros Hc Hcfg. rewrite (query_converted _ _ _ _ w Hc), Hcfg, lift_ok.
  apply submit_calls.
Qed.


(** No options, no configuration: the library is not asked. *)
Lemma set_job_config_empty : set_job_config lib ∅ = Ok None.
Proof. unfold set_job_config. by case_decide. Qed.

(** Options the library accepts make the configuration that holds them. *)
Lemma set_job_config_accepted (job_configs : gmap string option_value) :
  accepted lib job_configs →
  set_job_config lib job_configs = Ok (configuration_of job_configs).
Proof.
  intros Ha. unfold set_job_config, configuration_of. case_decide; [done |].
  by rewrite Ha.
Qed.


Lemma accepted_empty : accepted lib ∅.
Proof. by intros H. Qed.

Lemma configuration_of_empty : configuration_of ∅ = None.
Proof. unfold configuration_of. by case_decide. Qed.

End Runs.

(** ** Stored-procedure calls *)

(** C3.  For every procedure name [sp] and every list [params],
    the text [invoke] generates is exactly [CALL `sp`(...);] with
    [len(params)] markers [?] joined by a comma and a space: it depends
    on the length of [params] alone, not on what the descriptors hold,
    and it is the text [invoke] passes on to [query].  For an empty or
    omitted [params] there is no marker at all. *)
Theorem invoke_sql_placeholders {St} (client : Client St) (lib : Library) (sp : string)
    (params : list pyval) (job_configs : gmap string option_value) :
  generate_invoke_sql sp (VList params) = Ok (call_text sp (length params)) ∧
  count_char "?" (placeholders (length params)) = length params ∧
  invoke client lib sp (VList params) job_configs
  = query client lib (call_text sp (length params)) (VList params) job_configs ∧
  generate_invoke_sql sp (VList []) = Ok ("CALL `" +:+ sp +:+ "`();") ∧
  generate_invoke_sql sp VNone = Ok ("CALL `" +:+ sp +:+ "`();").
Proof.
  assert (generate_invoke_sql sp (VList params) = Ok (call_text sp (length params))) as Hsql.
  { unfold generate_invoke_sql, py_or, call_text.
    replace (py_iter (if truthy (VList params) then VList params else VList []))
      with (Ok params : outcome (list pyval)) by (by destruct params).
    change (Ok params ≫= ?k) with (k params). cbv beta.
    by rewrite join_placeholders. }
  split_and!; [done | apply count_markers | | done | done].
  unfold invoke. by rewrite Hsql.
Qed.

(** ** Filtered selects *)

(** C4.  For every non-empty list of filters, each a descriptor with a
    text under [name], the text [select] generates is
    [SELECT sel FROM `table` WHERE n1 = @n1 AND n2 = @n2 ...;]: one term
    per filter, in the order of the list, joined by [ AND ] and closed by
    a semicolon; and it is the text [select] passes on to [query]. *)
Theorem select_sql_where {St} (client : Client St) (lib : Library) (table sel : string)
    (cols : list pyval) (names : list string)
    (job_configs : gmap string option_value) :
  cols ≠ [] → Forall2 has_name cols names →
  generate_select_sql table sel (VList cols) = Ok (select_text table sel names) ∧
  length names = length cols ∧
  select client lib table sel (VList cols) job_configs
  = query client lib (select_text table sel names) (VList cols) job_configs.
Proof.
  intros Hne Hnames.
  assert (generate_select_sql table sel (VList cols) = Ok (select_text table sel names)) as Hsql.
  { unfold generate_select_sql, select_text.
    replace (isinstance_list (VList cols) && truthy (VList cols)) with true
      by (by destruct cols).
    simpl py_iter. change (Ok cols ≫= ?k) with (k cols). cbv beta.
    rewrite (filter_terms _ _ Hnames).
    change (Ok ?x ≫= ?k) with (k x). cbv beta.
    destruct Hnames as [|col n cols names _ _]; [done |].
    rewrite join_terms. unfold where_clause, mret, outcome_ret. f_equal.
    by rewrite !append_assoc. }
  split_and!; [done | symmetry; by eapply Forall2_length |].
  unfold select. by rewrite Hsql.
Qed.

Lemma select_sql_where_witness :
  let cols := [Mock.descriptor "param1" "STRING" (VStr "value1");
               Mock.descriptor "param2" "FLOAT64" (VInt 1)] in
  cols ≠ [] ∧ Forall2 has_name cols ["param1"; "param2"] ∧
  generate_select_sql "dataset.table" "select_column" (VList cols)
  = Ok "SELECT select_column FROM `dataset.table` WHERE param1 = @param1 AND param2 = @param2;".
Proof.
  assert (Forall2 has_name
            [Mock.descriptor "param1" "STRING" (VStr "value1");
             Mock.descriptor "param2" "FLOAT64" (VInt 1)] ["param1"; "param2"]) as Hn.
  { repeat constructor; eexists; (split; [reflexivity | reflexivity]). }
  assert ([Mock.descriptor "param1" "STRING" (VStr "value1");
           Mock.descriptor "param2" "FLOAT64" (VInt 1)] ≠ []) as Hne by discriminate.
  cbv zeta. split_and!; [exact Hne | exact Hn |].
  exact (proj1 (select_sql_where (Mock.client VNone VNone) Mock.library "dataset.table"
                  "select_column"
                  _ _ ∅ Hne Hn)).
Defined.

Lemma select_sql_plain (table sel : string) (filters : pyval) :
  isinstance_list filters = false ∨ filters = VList [] →
  generate_select_sql table sel filters = Ok ("SELECT " +:+ sel +:+ " FROM `" +:+ table +:+ "`;").
Proof.
  intros Hf. unfold generate_select_sql.
  replace (isinstance_list filters && truthy filters) with false
    by (destruct Hf as [Hf | ->]; [by rewrite Hf | done]).
  unfold mret, outcome_ret. f_equal. by rewrite !append_assoc.
Qed.

Lemma falsy_not_filters (filters : pyval) :
  truthy filters = false → isinstance_list filters = false ∨ filters = VList [].
Proof. destruct filters as [| | | | [|x l] | |]; intros; by (left + right). Qed.

(** A select with falsy filters makes one call: the plain text, with the
    configuration of the caller's own options. *)
Lemma select_falsy_calls {St} (client : Client St) (lib : Library) (table sel : string)
    (filters : pyval) (job_configs : gmap string option_value) (w : world St) :
  truthy filters = false → accepted lib job_configs →
  calls (select client lib table sel filters job_configs w).2
  = calls w ++ [CallQuery ("SELECT " +:+ sel +:+ " FROM `" +:+ table +:+ "`;")
                  (configuration_of job_configs)].
Proof.
  intros Hfalsy Ha. unfold select.
  rewrite (select_sql_plain table sel filters (falsy_not_filters _ Hfalsy)), lift_ok.
  by rewrite (query_calls client lib _ _ _ None _ w (convert_params_falsy _ Hfalsy)
                (set_job_config_accepted lib _ Ha)).
Qed.

(** C1, as the code has it.  Whenever [filters] is not a list, or is the
    empty list, the generated text is exactly [SELECT sel FROM `table`;],
    with no [WHERE] clause; and whenever [filters] is moreover falsy
    (omitted, [None], an empty list, an empty tuple, ...) and the library
    takes the caller's options, the delegated query carries the
    configuration of the caller's own options, with no [query_parameters]
    installed. *)
Theorem select_without_filters {St} (client : Client St) (lib : Library) (table sel : string)
    (filters : pyval) (job_configs : gmap string option_value) (w : world St) :
  isinstance_list filters = false ∨ filters = VList [] →
  generate_select_sql table sel filters
  = Ok ("SELECT " +:+ sel +:+ " FROM `" +:+ table +:+ "`;") ∧
  (truthy filters = false → accepted lib job_configs →
   calls (select client lib table sel filters job_configs w).2
   = calls w ++ [CallQuery ("SELECT " +:+ sel +:+ " FROM `" +:+ table +:+ "`;")
                   (configuration_of job_configs)]).
Proof.
  intros Hf. split; [by apply select_sql_plain | apply select_falsy_calls].
Qed.

Lemma select_without_filters_witness :
  (isinstance_list VNone = false ∨ VNone = VList []) ∧ truthy VNone = false ∧
  accepted Mock.library {[ "write_disposition" := OptValue (VStr "WRITE_TRUNCATE") ]} ∧
  calls (select (Mock.client (VStr "result") VNone) Mock.library "dataset.table"
           "select_column" VNone
           {[ "write_disposition" := OptValue (VStr "WRITE_TRUNCATE") ]} Mock.start).2
  = [CallQuery "SELECT select_column FROM `dataset.table`;"
       (Some {| properties :=
                  {[ "write_disposition" := OptValue (VStr "WRITE_TRUNCATE") ]} |})].
Proof.
  assert (accepted Mock.library {[ "write_disposition" := OptValue (VStr "WRITE_TRUNCATE") ]})
    as Ha by (intros _; reflexivity).
  split_and!; [by left | reflexivity | exact Ha |].
  exact (proj2 (select_without_filters (Mock.client (VStr "result") VNone) Mock.library
                  "dataset.table" "select_column" VNone
                  {[ "write_disposition" := OptValue (VStr "WRITE_TRUNCATE") ]} Mock.start
                  (or_introl eq_refl)) eq_refl Ha).
Defined.

(** C1, as the specification words it, fails: a tuple holding one
    descriptor is not a list, the text has no [WHERE] clause, and yet the
    delegated query is configured with [query_parameters] bound from the
    tuple. *)
Lemma select_tuple_filters_binds_parameters :
  isinstance_list (VTuple [Mock.descriptor "param1" "STRING" (VStr "value1")]) = false ∧
  calls (select (Mock.client (VStr "result") VNone) Mock.library "dataset.table" "select_column"
           (VTuple [Mock.descriptor "param1" "STRING" (VStr "value1")]) ∅ Mock.start).2
  = [CallQuery "SELECT select_column FROM `dataset.table`;"
       (Some {| properties :=
                  {[ "query_parameters" :=
                       OptParameters [{| name := VStr "param1";
                                         type_ := VStr "STRING";
                                         value := VStr "value1" |}] ]} |})] ∧
  calls (select (Mock.client (VStr "result") VNone) Mock.library "dataset.table" "select_column"
           (VTuple [Mock.descriptor "param1" "STRING" (VStr "value1")]) ∅ Mock.start).2
  ≠ [CallQuery "SELECT select_column FROM `dataset.table`;" (configuration_of ∅)].
Proof. split_and!; [reflexivity | by vm_compute | by vm_compute]. Qed.

(** ** Queries *)

Lemma configuration_of_insert (k : string) (v : option_value)
    (job_configs : gmap string option_value) :
  configuration_of (<[k := v]> job_configs)
  = Some {| properties := <[k := v]> job_configs |}.
Proof. unfold configuration_of. case_decide as H; [|done]. by apply insert_non_empty in H. Qed.

Lemma set_job_config_insert (lib : Library) (k : string) (v : option_value)
    (job_configs : gmap string option_value) :
  config_error lib (<[k := v]> job_configs) = None →
  set_job_config lib (<[k := v]> job_configs)
  = Ok (Some {| properties := <[k := v]> job_configs |}).
Proof.
  intros Ha. rewrite set_job_config_accepted by (by intros _).
  by rewrite configuration_of_insert.
Qed.





(** ** Reading one value *)

(** A row that has a first column is truthy. *)
Lemma getitem0_truthy (row x : pyval) : py_getitem0 row = Ok x → truthy row = true.
Proof. destruct row as [| | | [|c s] | [|y l] | [|y l] |]; by intros. Qed.

Lemma get_one_result_row (query_res row : pyval) (rest : list pyval) :
  py_iter query_res = Ok (row :: rest) →
  get_one_result query_res = if truthy row then py_getitem0 row else Ok VNone.
Proof. intros Hi. unfold get_one_result, py_next_or_none. by rewrite Hi. Qed.

(** C5.  For every iterable result, [get_one_result] returns [None]
    when the iterable yields no row, and otherwise the first column
    [row[0]] of the first row it yields. *)
Theorem get_one_result_first (query_res : pyval) :
  (py_iter query_res = Ok [] → get_one_result query_res = Ok VNone) ∧
  (∀ row rest x,
     py_iter query_res = Ok (row :: rest) → py_getitem0 row = Ok x →
     get_one_result query_res = Ok x).
Proof.
  split.
  - intros Hi. unfold get_one_result, py_next_or_none. by rewrite Hi.
  - intros row rest x Hi Hx. rewrite (get_one_result_row _ _ _ Hi).
    by rewrite (getitem0_truthy _ _ Hx).
Qed.

Lemma get_one_result_first_witness :
  (py_iter (VList []) = Ok [] ∧ get_one_result (VList []) = Ok VNone) ∧
  (py_iter (VList [VTuple [VStr "result_value"]]) = Ok [VTuple [VStr "result_value"]] ∧
   py_getitem0 (VTuple [VStr "result_value"]) = Ok (VStr "result_value") ∧
   get_one_result (VList [VTuple [VStr "result_value"]]) = Ok (VStr "result_value")).
Proof.
  split.
  - split; [reflexivity |]. exact (proj1 (get_one_result_first (VList [])) eq_refl).
  - split_and!; [reflexivity | reflexivity |].
    exact (proj2 (get_one_result_first (VList [VTuple [VStr "result_value"]]))
             (VTuple [VStr "result_value"]) [] (VStr "result_value") eq_refl eq_refl).
Defined.

(** C10.  For every iterable whose first row is falsy (an empty tuple,
    say), [get_one_result] returns [None]: it neither raises nor returns
    the row, and the answer is the one an empty result gives. *)
Theorem get_one_result_falsy_row (query_res row : pyval) (rest : list pyval) :
  py_iter query_res = Ok (row :: rest) → truthy row = false →
  get_one_result query_res = Ok VNone ∧
  get_one_result query_res = get_one_result (VList []).
Proof.
  intros Hi Hf. rewrite (get_one_result_row _ _ _ Hi), Hf. by split.
Qed.

Lemma get_one_result_falsy_row_witness :
  py_iter (VList [VTuple []; VTuple [VInt 1]]) = Ok [VTuple []; VTuple [VInt 1]] ∧
  truthy (VTuple []) = false ∧
  py_getitem0 (VTuple []) = Raise IndexError ∧
  get_one_result (VList [VTuple []; VTuple [VInt 1]]) = Ok VNone.
Proof.
  split_and!; [reflexivity | reflexivity | reflexivity |].
  exact (proj1 (get_one_result_falsy_row (VList [VTuple []; VTuple [VInt 1]])
                  (VTuple []) [VTuple [VInt 1]] eq_refl eq_refl)).
Defined.

(** ** Inserts *)

Section Inserts.
Context {St : Type} (client : Client St).

(** What [insert] does with data that is not empty, entry by entry. *)
Lemma insert_run (destination_table : string) (data selected_fields : pyval)
    (kwargs : gmap string pyval) (w : world St) :
  truthy data = true →
  insert client destination_table data selected_fields kwargs w
  = match client_get_table client destination_table (cstate w) with
    | (Raises e, s1) =>
        (Raise (ClientError e),
         {| cstate := s1; calls := calls w ++ [CallGetTable destination_table] |})
    | (Returns table, s1) =>
        let log := (calls w ++ [CallGetTable destination_table])
                     ++ [CallInsertRows table data selected_fields kwargs] in
        match client_insert_rows client table data selected_fields kwargs s1 with
        | (Raises e, s2) => (Raise (ClientError e), {| cstate := s2; calls := log |})
        | (Returns res, s2) =>
            (if truthy res then Raise (RuntimeError res) else Ok VNone,
             {| cstate := s2; calls := log |})
        end
    end.
Proof.
  intros Hd. unfold insert. rewrite Hd.
  unfold mbind, M_bind, call_client. simpl.
  destruct (client_get_table client destination_table (cstate w)) as [[table|e] s1];
    simpl; [|done].
  destruct (client_insert_rows client table data selected_fields kwargs s1)
    as [[res|e] s2]; simpl; [|done].
  by destruct (truthy res).
Qed.

End Inserts.

(** C6.  For every insert of non-empty rows, [insert] raises the
    [RuntimeError] exactly when the client's row insertion returns a
    non-empty error sequence, and the error raised carries that sequence;
    when the sequence returned is empty, [insert] returns [None] with no
    error. *)
Theorem insert_raises_iff_errors {St} (client : Client St) (destination_table : string)
    (data selected_fields : pyval) (kwargs : gmap string pyval) (w : world St) :
  truthy data = true →
  (∀ errors,
     (insert client destination_table data selected_fields kwargs w).1
     = Raise (RuntimeError errors)
     ↔ ∃ table s1 s2,
         client_get_table client destination_table (cstate w) = (Returns table, s1) ∧
         client_insert_rows client table data selected_fields kwargs s1
         = (Returns errors, s2) ∧
         truthy errors = true) ∧
  (∀ table s1 s2 errors,
     client_get_table client destination_table (cstate w) = (Returns table, s1) →
     client_insert_rows client table data selected_fields kwargs s1 = (Returns errors, s2) →
     truthy errors = false →
     (insert client destination_table data selected_fields kwargs w).1 = Ok VNone).
Proof.
  intros Hd. rewrite (insert_run client _ _ _ _ w Hd). split.
  - intros errors. split.
    + destruct (client_get_table client destination_table (cstate w)) as [[table|e] s1];
        [|done].
      cbv zeta.
      destruct (client_insert_rows client table data selected_fields kwargs s1)
        as [[res|e] s2] eqn:Hi; [|done].
      destruct (truthy res) eqn:Hr; [|done].
      simpl. intros [= ->]. by exists table, s1, s2.
    + intros (table & s1 & s2 & -> & Hi & Hr). cbv zeta. by rewrite Hi, Hr.
  - intros table s1 s2 errors -> Hi Hr. cbv zeta. by rewrite Hi, Hr.
Qed.

Lemma insert_raises_iff_errors_witness :
  truthy (VList [VDict [("column1", VStr "value1")]]) = true ∧
  (insert (Mock.client VNone (VList [VStr "error when insert to bigquery"]))
     "dataset.table" (VList [VDict [("column1", VStr "value1")]]) VNone ∅ Mock.start).1
  = Raise (RuntimeError (VList [VStr "error when insert to bigquery"])) ∧
  (insert (Mock.client VNone (VList []))
     "dataset.table" (VList [VDict [("column1", VStr "value1")]]) VNone ∅ Mock.start).1
  = Ok VNone.
Proof.
  split_and!; [reflexivity | |].
  - apply (proj1 (insert_raises_iff_errors
                    (Mock.client VNone (VList [VStr "error when insert to bigquery"]))
                    "dataset.table" (VList [VDict [("column1", VStr "value1")]]) VNone ∅
                    Mock.start eq_refl)).
    exists (VStr "dataset.table"), 1%nat, 2%nat. split_and!; reflexivity.
  - exact (proj2 (insert_raises_iff_errors (Mock.client VNone (VList []))
                    "dataset.table" (VList [VDict [("column1", VStr "value1")]]) VNone ∅
                    Mock.start eq_refl)
             (VStr "dataset.table") 1%nat 2%nat (VList []) eq_refl eq_refl eq_refl).
Defined.

(** C7.  For every insert whose rows are empty or absent, [insert]
    returns [None] at once: no call is made on the client, neither for the
    table nor for the rows, and the world is as it was. *)
Theorem insert_nothing {St} (client : Client St) (destination_table : string)
    (data selected_fields : pyval) (kwargs : gmap string pyval) (w : world St) :
  truthy data = false →
  insert client destination_table data selected_fields kwargs w = (Ok VNone, w).
Proof. intros Hd. unfold insert. by rewrite Hd. Qed.

Lemma insert_nothing_witness :
  truthy (VList []) = false ∧
  insert (Mock.client VNone (VList [VStr "unreachable"])) "dataset.table" (VList []) VNone ∅
    Mock.start
  = (Ok VNone, Mock.start).
Proof.
  split; [reflexivity |].
  exact (insert_nothing (Mock.client VNone (VList [VStr "unreachable"])) "dataset.table"
           (VList []) VNone ∅ Mock.start eq_refl).
Defined.

(** ** The last identifier *)

(** C9.  For every table, [get_last_id] runs
    [select(table, MAX(Id))] with no filter, reduces its result with
    [get_one_result], and returns [0] when that value is [None] (the
    empty table) and the integer itself otherwise. *)
Theorem get_last_id_default {St} (client : Client St) (lib : Library) (destination_table : string)
    (w w1 : world St) (last_id one : pyval) :
  select client lib destination_table "MAX(Id)" VNone ∅ w = (Ok last_id, w1) →
  get_one_result last_id = Ok one →
  calls w1 = calls w ++ [CallQuery ("SELECT MAX(Id) FROM `" +:+ destination_table +:+ "`;") None] ∧
  (one = VNone → get_last_id client lib destination_table w = (Ok (VInt 0), w1)) ∧
  (∀ z, one = VInt z → get_last_id client lib destination_table w = (Ok (VInt z), w1)).
Proof.
  intros Hs Hone.
  assert (get_last_id client lib destination_table w = (Ok (py_or one (VInt 0)), w1)) as Hrun.
  { unfold get_last_id. unfold mbind at 1. unfold M_bind. rewrite Hs.
    by rewrite Hone. }
  split_and!.
  - pose proof (select_falsy_calls client lib destination_table "MAX(Id)" VNone ∅ w eq_refl
                  (accepted_empty lib)) as Hcalls.
    by rewrite Hs, configuration_of_empty in Hcalls.
  - by intros ->.
  - intros z ->. rewrite Hrun. unfold py_or. simpl.
    destruct (Z.eqb_spec z 0) as [-> |]; done.
Qed.

Lemma get_last_id_default_witness :
  select (Mock.client (VList [VTuple [VInt 7]]) VNone) Mock.library "dataset.table" "MAX(Id)"
    VNone ∅
    Mock.start
  = (Ok (VList [VTuple [VInt 7]]),
     {| cstate := 2%nat; calls := [CallQuery "SELECT MAX(Id) FROM `dataset.table`;" None] |}) ∧
  get_one_result (VList [VTuple [VInt 7]]) = Ok (VInt 7) ∧
  get_last_id (Mock.client (VList [VTuple [VInt 7]]) VNone) Mock.library "dataset.table" Mock.start
  = (Ok (VInt 7),
     {| cstate := 2%nat; calls := [CallQuery "SELECT MAX(Id) FROM `dataset.table`;" None] |}).
Proof.
  split_and!; [reflexivity | reflexivity |].
  exact (proj2 (proj2 (get_last_id_default (Mock.client (VList [VTuple [VInt 7]]) VNone)
                         Mock.library
                         "dataset.table" Mock.start _ _ (VInt 7) eq_refl eq_refl))
           7 eq_refl).
Defined.

(** ** The repository's tests, replayed on the embedding *)

Example test_invoke :
  calls (invoke (Mock.client (VStr "result") VNone) Mock.library "dataset.stored_procedure"
           (VList [VDict [("_name", VStr "param1"); ("type", VStr "STRING");
                          ("value", VStr "value1")];
                   VDict [("_name", VStr "param2"); ("type", VStr "FLOAT64");
                          ("value", VInt 1)]])
           ∅ Mock.start).2
  = [CallQuery "CALL `dataset.stored_procedure`(?, ?);"
       (Some {| properties :=
                  {[ "query_parameters" :=
                       OptParameters
                         [{| name := VNone; type_ := VStr "STRING"; value := VStr "value1" |};
                          {| name := VNone; type_ := VStr "FLOAT64"; value := VInt 1 |}] ]} |})].
Proof. by vm_compute. Qed.

Example test_insert_success :
  insert (Mock.client VNone (VList [])) "dataset.table"
    (VList [VDict [("column1", VStr "value1"); ("column2", VStr "value2")]]) VNone
    {[ "write_disposition" := VStr "WRITE_TRUNCATE" ]} Mock.start
  = (Ok VNone,
     {| cstate := 2%nat;
        calls := [CallGetTable "dataset.table";
                  CallInsertRows (VStr "dataset.table")
                    (VList [VDict [("column1", VStr "value1"); ("column2", VStr "value2")]])
                    VNone {[ "write_disposition" := VStr "WRITE_TRUNCATE" ]}] |}).
Proof. by vm_compute. Qed.

Example test_get_service_item :
  calls (get_service_item (Mock.client (VList [VTuple [VStr "v"]]) VNone) Mock.library
           "dataset.items" "key" Mock.start).2
  = [CallQuery "SELECT item_value FROM `dataset.items` WHERE item_name = @item_name;"
       (Some {| properties :=
                  {[ "query_parameters" :=
                       OptParameters
                         [{| name := VStr "item_name"; type_ := VStr "STRING";
                             value := VStr "key" |}] ]} |})].
Proof. by vm_compute. Qed.

(** * Beyond the claims: errors, edges and compositions *)

Import Shape.

(** ** Elements that are not descriptors *)

Lemma convert_param_dict (entries : list (string * pyval)) :
  ∃ p, convert_param (VDict entries) = Ok p ∧ bound_from (VDict entries) p.
Proof. by eexists. Qed.

Lemma convert_param_other (v : pyval) :
  is_dict v = false → convert_param v = Raise AttributeError.
Proof. by destruct v. Qed.



(** A comprehension over a list either meets an element without [get]
    and raises, or runs through. *)
Lemma convert_items_cases (items : list pyval) :
  (Exists (λ v, is_dict v = false) items ∧
   mapM convert_param items = Raise AttributeError) ∨
  (Forall (λ v, is_dict v = true) items ∧
   ∃ ps, mapM convert_param items = Ok ps ∧ Forall2 bound_from items ps).
Proof.
  induction items as [|v items IH]; [right; split; [done | by exists []] |].
  destruct (is_dict v) eqn:Hv.
  - destruct v as [| | | | | | entries]; try done.
    destruct (convert_param_dict entries) as (p & Hp & Hb).
    destruct IH as [[Hex Hr] | [Hall (ps & Hps & Hbs)]].
    + left. split; [by apply Exists_cons_tl |]. cbn [mapM]. by rewrite Hp, Hr.
    + right. split; [by constructor |]. exists (p :: ps).
      split; [cbn [mapM]; by rewrite Hp, Hps | by constructor].
  - left. split; [by apply Exists_cons_hd |].
    cbn [mapM]. by rewrite (convert_param_other _ Hv).
Qed.


Lemma Exists_not_nil {A} (P : A → Prop) (l : list A) : Exists P l → l ≠ [].
Proof. by destruct 1. Qed.

(** X1.  Converting a list of parameters fails exactly when one of its
    elements is not a dict, and then with [AttributeError]; a list of
    dicts always converts, missing keys and all. *)
Theorem convert_params_raises_iff (items : list pyval) :
  (convert_params (VList items) = Raise AttributeError
   ↔ Exists (λ v, is_dict v = false) items) ∧
  (∀ e, convert_params (VList items) = Raise e → e = AttributeError) ∧
  (Forall (λ v, is_dict v = true) items → ∃ ps, convert_params (VList items) = Ok ps).
Proof.
  assert (items = [] ∨ truthy (VList items) = true) as [-> | Ht]
    by (destruct items; [by left | by right]).
  { split_and!; [split; [done | by inversion 1] | done | by eexists]. }
  unfold convert_params. rewrite Ht. simpl py_iter.
  change (Ok items ≫= ?k) with (k items). cbv beta.
  destruct (convert_items_cases items) as [[Hex Hr] | [Hall (ps & Hps & _)]].
  - rewrite Hr. split_and!; [done | by intros e [= <-] |].
    intros Hall. exfalso. apply Exists_exists in Hex as (v & Hin & Hv).
    rewrite Forall_forall in Hall. specialize (Hall v Hin). congruence.
  - rewrite Hps. split_and!; [split; [done |] | done | by eexists].
    intros Hex. exfalso. apply Exists_exists in Hex as (v & Hin & Hv).
    rewrite Forall_forall in Hall. specialize (Hall v Hin). congruence.
Qed.

Lemma convert_params_raises_iff_witness :
  Forall (λ v, is_dict v = true) [VDict [("_name", VStr "param1")]] ∧
  ∃ ps, convert_params (VList [VDict [("_name", VStr "param1")]]) = Ok ps.
Proof.
  assert (Forall (λ v, is_dict v = true) [VDict [("_name", VStr "param1")]]) as Hall
    by (repeat constructor).
  split; [exact Hall |].
  exact (proj2 (proj2 (convert_params_raises_iff [VDict [("_name", VStr "param1")]])) Hall).
Defined.




(** ** Filters whose name is missing or is not a text *)




(** ** Markers and bound parameters *)

Lemma count_call_text (sp : string) (n : nat) :
  count_char "?" (call_text sp n) = (count_char "?" sp + n)%nat.
Proof.
  unfold call_text. rewrite !count_char_app, count_markers. simpl. lia.
Qed.

(** X4.  Whatever truthy iterable [params] is (a list, a tuple, a
    text, a dict), [__generate_invoke_sql] writes one marker per item it
    runs through, so the text holds as many [?] as the procedure name
    does plus the number of items. *)
Theorem invoke_sql_any_iterable (sp : string) (params : pyval) (items : list pyval) :
  truthy params = true → py_iter params = Ok items →
  generate_invoke_sql sp params = Ok (call_text sp (length items)) ∧
  count_char "?" (call_text sp (length items)) = (count_char "?" sp + length items)%nat.
Proof.
  intros Ht Hi. split; [|apply count_call_text].
  unfold generate_invoke_sql, py_or. rewrite Ht, Hi.
  change (Ok items ≫= ?k) with (k items). cbv beta.
  by rewrite join_placeholders.
Qed.

Lemma invoke_sql_any_iterable_witness :
  truthy (VStr "ab") = true ∧ py_iter (VStr "ab") = Ok [VStr "a"; VStr "b"] ∧
  generate_invoke_sql "dataset.sp" (VStr "ab") = Ok "CALL `dataset.sp`(?, ?);".
Proof.
  split_and!; [reflexivity | reflexivity |].
  exact (proj1 (invoke_sql_any_iterable "dataset.sp" (VStr "ab") [VStr "a"; VStr "b"]
                  eq_refl eq_refl)).
Defined.

Lemma invoke_sql_raise_cases (sp : string) (params : pyval) (e : exn) :
  generate_invoke_sql sp params = Raise e
  ↔ e = TypeError ∧ (params = VBool true ∨ ∃ z, z ≠ 0 ∧ params = VInt z).
Proof.
  split.
  - destruct params as [| [|] | z | s | l | l | d]; try done.
    + intros [= <-]. split; [done | by left].
    + unfold generate_invoke_sql, py_or. simpl truthy.
      destruct (Z.eqb_spec z 0) as [-> | Hz]; [done |].
      intros [= <-]. split; [done |]. right. by exists z.
    + unfold generate_invoke_sql, py_or. by destruct (truthy (VStr s)).
    + unfold generate_invoke_sql, py_or. by destruct (truthy (VList l)).
    + unfold generate_invoke_sql, py_or. by destruct (truthy (VTuple l)).
    + unfold generate_invoke_sql, py_or. by destruct (truthy (VDict d)).
  - intros [-> [-> | (z & Hz & ->)]]; [done |].
    unfold generate_invoke_sql, py_or. simpl truthy.
    by destruct (Z.eqb_spec z 0).
Qed.

(** X5.  [__generate_invoke_sql] raises exactly when [params] is a
    truthy value that cannot be iterated, [True] or a non-zero integer,
    and then with [TypeError]; a falsy value of any type ([None], [False],
    [0], an empty text, list, tuple or dict) gives the empty marker
    list. *)
Theorem invoke_sql_raises_iff (sp : string) (params : pyval) :
  (∀ e, generate_invoke_sql sp params = Raise e
        ↔ e = TypeError ∧ (params = VBool true ∨ ∃ z, z ≠ 0 ∧ params = VInt z)) ∧
  (truthy params = false →
   generate_invoke_sql sp params = Ok ("CALL `" +:+ sp +:+ "`();")).
Proof.
  split; [intros e; apply invoke_sql_raise_cases |].
  intros Hf. unfold generate_invoke_sql, py_or. by rewrite Hf.
Qed.

Lemma invoke_sql_raises_iff_witness :
  truthy (VInt 0) = false ∧
  generate_invoke_sql "dataset.sp" (VInt 0) = Ok "CALL `dataset.sp`();" ∧
  generate_invoke_sql "dataset.sp" (VInt 3) = Raise TypeError.
Proof.
  split_and!; [reflexivity | |].
  - exact (proj2 (invoke_sql_raises_iff "dataset.sp" (VInt 0)) eq_refl).
  - apply (proj1 (invoke_sql_raises_iff "dataset.sp" (VInt 3)) TypeError).
    split; [reflexivity |]. right. exists 3. split; [discriminate | reflexivity].
Defined.

Lemma bound_name (col : pyval) (n : string) (p : ScalarQueryParameter) :
  has_name col n → bound_from col p → name p = VStr n.
Proof.
  intros (entries & -> & Hn) (Hp & _ & _). simpl in Hp. rewrite Hn in Hp.
  by inversion Hp.
Qed.

Lemma has_name_dict (col : pyval) (n : string) : has_name col n → is_dict col = true.
Proof. by intros (entries & -> & _). Qed.

Lemma dicts_convert (items : list pyval) :
  Forall (λ v, is_dict v = true) items →
  ∃ ps, mapM convert_param items = Ok ps ∧ Forall2 bound_from items ps.
Proof.
  intros Hall. destruct (convert_items_cases items) as [[Hex _] | [_ H]]; [|done].
  exfalso. apply Exists_exists in Hex as (v & Hin & Hv).
  rewrite Forall_forall in Hall. specialize (Hall v Hin). congruence.
Qed.

(** The stand-in library takes every set of options with known names. *)
Lemma mock_library_takes (options : gmap string option_value) :
  map_Forall (λ k _, Mock.known_option k = true) options →
  config_error Mock.library options = None.
Proof.
  intros Hk. unfold Mock.library. simpl.
  by destruct (decide (map_Forall (λ k _, Mock.known_option k = true) options)).
Qed.

Lemma mock_library_takes_parameters (v : option_value) :
  config_error Mock.library (<["query_parameters" := v]> ∅) = None.
Proof. apply mock_library_takes. rewrite insert_empty. by apply map_Forall_singleton. Qed.

(** X6.  For every non-empty list of dicts, when the library takes the
    options completed with the bound parameters, [invoke] makes one call
    on the client, and the text it sends holds exactly as many markers as
    the configuration holds bound parameters. *)
Theorem invoke_markers_match_parameters {St} (client : Client St) (lib : Library) (sp : string)
    (items : list pyval) (job_configs : gmap string option_value) (w : world St) :
  items ≠ [] → Forall (λ v, is_dict v = true) items →
  (∀ ps, Forall2 bound_from items ps →
         config_error lib (<["query_parameters" := OptParameters ps]> job_configs) = None) →
  ∃ ps cfg,
    calls (invoke client lib sp (VList items) job_configs w).2
    = calls w ++ [CallQuery (call_text sp (length ps)) (Some cfg)] ∧
    properties cfg !! "query_parameters" = Some (OptParameters ps) ∧
    count_char "?" (placeholders (length ps)) = length ps ∧
    length ps = length items.
Proof.
  intros Hne Hall Ha. destruct (dicts_convert items Hall) as (ps & Hps & Hb).
  assert (truthy (VList items) = true) as Ht by (by destruct items).
  pose proof (convert_params_bound (VList items) items ps Ht eq_refl Hb) as Hc.
  pose proof (Forall2_length _ _ _ Hb) as Hlen.
  exists ps, {| properties := <["query_parameters" := OptParameters ps]> job_configs |}.
  split_and!; [| apply lookup_insert_eq | apply count_markers | done].
  unfold invoke.
  assert (generate_invoke_sql sp (VList items) = Ok (call_text sp (length ps))) as ->.
  { rewrite <- Hlen. unfold generate_invoke_sql, py_or. rewrite Ht. simpl py_iter.
    change (Ok items ≫= ?k) with (k items). cbv beta. by rewrite join_placeholders. }
  rewrite lift_ok.
  by apply (query_calls client lib _ _ job_configs _ _ w Hc), (set_job_config_insert lib), Ha.
Qed.

Lemma invoke_markers_match_parameters_witness :
  [VDict [("_name", VStr "param1"); ("type", VStr "STRING"); ("value", VStr "value1")]] ≠ [] ∧
  Forall (λ v, is_dict v = true)
    [VDict [("_name", VStr "param1"); ("type", VStr "STRING"); ("value", VStr "value1")]] ∧
  (∀ ps,
     Forall2 bound_from
       [VDict [("_name", VStr "param1"); ("type", VStr "STRING"); ("value", VStr "value1")]]
       ps →
     config_error Mock.library (<["query_parameters" := OptParameters ps]> ∅) = None) ∧
  ∃ ps cfg,
    calls (invoke (Mock.client (VStr "result") VNone) Mock.library "dataset.stored_procedure"
             (VList [VDict [("_name", VStr "param1"); ("type", VStr "STRING");
                            ("value", VStr "value1")]]) ∅ Mock.start).2
    = [CallQuery (call_text "dataset.stored_procedure" (length ps)) (Some cfg)] ∧
    properties cfg !! "query_parameters" = Some (OptParameters ps).
Proof.
  assert ([VDict [("_name", VStr "param1"); ("type", VStr "STRING"); ("value", VStr "value1")]]
          ≠ []) as Hne by discriminate.
  assert (Forall (λ v, is_dict v = true)
            [VDict [("_name", VStr "param1"); ("type", VStr "STRING");
                    ("value", VStr "value1")]]) as Hall by (repeat constructor).
  assert (∀ ps,
            Forall2 bound_from
              [VDict [("_name", VStr "param1"); ("type", VStr "STRING");
                      ("value", VStr "value1")]] ps →
            config_error Mock.library (<["query_parameters" := OptParameters ps]> ∅) = None)
    as Ha by (intros ps _; apply mock_library_takes_parameters).
  split_and!; [exact Hne | exact Hall | exact Ha |].
  destruct (invoke_markers_match_parameters (Mock.client (VStr "result") VNone) Mock.library
              "dataset.stored_procedure" _ ∅ Mock.start Hne Hall Ha)
    as (ps & cfg & Hcalls & Hq & _ & _).
  exists ps, cfg. split; [exact Hcalls | exact Hq].
Defined.

(** X7.  For every non-empty list of filters with text names, when the
    library takes the options completed with the bound parameters,
    [select] makes one call on the client in which every marker of the
    [WHERE] clause has its parameter: the bound parameters carry, in
    order, the very names the clause mentions. *)
Theorem select_markers_match_parameters {St} (client : Client St) (lib : Library)
    (table sel : string)
    (cols : list pyval) (names : list string)
    (job_configs : gmap string option_value) (w : world St) :
  cols ≠ [] → Forall2 has_name cols names →
  (∀ ps, Forall2 bound_from cols ps →
         config_error lib (<["query_parameters" := OptParameters ps]> job_configs) = None) →
  ∃ ps cfg,
    calls (select client lib table sel (VList cols) job_configs w).2
    = calls w ++ [CallQuery (select_text table sel names) (Some cfg)] ∧
    properties cfg !! "query_parameters" = Some (OptParameters ps) ∧
    name <$> ps = VStr <$> names.
Proof.
  intros Hne Hnames Ha.
  assert (Forall (λ v, is_dict v = true) cols) as Hall.
  { clear Hne Ha. induction Hnames; constructor; [by eapply has_name_dict | done]. }
  destruct (dicts_convert cols Hall) as (ps & Hps & Hb).
  assert (truthy (VList cols) = true) as Ht by (by destruct cols).
  pose proof (convert_params_bound (VList cols) cols ps Ht eq_refl Hb) as Hc.
  exists ps, {| properties := <["query_parameters" := OptParameters ps]> job_configs |}.
  split_and!; [| apply lookup_insert_eq |].
  - unfold select.
    assert (generate_select_sql table sel (VList cols) = Ok (select_text table sel names))
      as ->.
    { unfold generate_select_sql, select_text.
      replace (isinstance_list (VList cols) && truthy (VList cols)) with true
        by (by rewrite Ht).
      simpl py_iter. change (Ok cols ≫= ?k) with (k cols). cbv beta.
      rewrite (filter_terms _ _ Hnames). change (Ok ?x ≫= ?k) with (k x). cbv beta.
      destruct Hnames as [|col n cols names _ _]; [done |].
      rewrite join_terms. unfold where_clause, mret, outcome_ret. f_equal.
      by rewrite !append_assoc. }
    rewrite lift_ok.
    by apply (query_calls client lib _ _ job_configs _ _ w Hc), (set_job_config_insert lib),
      Ha.
  - clear Hne Hall Hps Ht Hc Ha. revert ps Hb.
    induction Hnames as [|col n cols names Hn _ IH]; intros ps Hb.
    + by inversion Hb.
    + inversion Hb as [|? p ? ps' Hp Hb' ]; subst.
      rewrite !fmap_cons. f_equal; [by eapply bound_name | by apply IH].
Qed.

Lemma select_markers_match_parameters_witness :
  [Mock.descriptor "param1" "STRING" (VStr "value1")] ≠ [] ∧
  Forall2 has_name [Mock.descriptor "param1" "STRING" (VStr "value1")] ["param1"] ∧
  (∀ ps,
     Forall2 bound_from [Mock.descriptor "param1" "STRING" (VStr "value1")] ps →
     config_error Mock.library (<["query_parameters" := OptParameters ps]> ∅) = None) ∧
  ∃ ps cfg,
    calls (select (Mock.client (VStr "result") VNone) Mock.library "dataset.table" "c"
             (VList [Mock.descriptor "param1" "STRING" (VStr "value1")]) ∅ Mock.start).2
    = [CallQuery "SELECT c FROM `dataset.table` WHERE param1 = @param1;" (Some cfg)] ∧
    properties cfg !! "query_parameters" = Some (OptParameters ps) ∧
    name <$> ps = [VStr "param1"].
Proof.
  assert ([Mock.descriptor "param1" "STRING" (VStr "value1")] ≠ []) as Hne by discriminate.
  assert (Forall2 has_name [Mock.descriptor "param1" "STRING" (VStr "value1")] ["param1"])
    as Hn by (repeat constructor; eexists; (split; reflexivity)).
  assert (∀ ps,
            Forall2 bound_from [Mock.descriptor "param1" "STRING" (VStr "value1")] ps →
            config_error Mock.library (<["query_parameters" := OptParameters ps]> ∅) = None)
    as Ha by (intros ps _; apply mock_library_takes_parameters).
  split_and!; [exact Hne | exact Hn | exact Ha |].
  destruct (select_markers_match_parameters (Mock.client (VStr "result") VNone) Mock.library
              "dataset.table" "c" _ _ ∅ Mock.start Hne Hn Ha)
    as (ps & cfg & Hcalls & Hq & Hnames).
  exists ps, cfg. split_and!; [exact Hcalls | exact Hq | exact Hnames].
Defined.

(** ** What a query returns *)

Section QueryRuns.
Context {St : Type} (client : Client St) (lib : Library).

(** [query], once its parameters convert and the library has built the
    configuration, entry by entry. *)
Lemma query_run (sql : string) (params : pyval) (job_configs : gmap string option_value)
    (ps : option (list ScalarQueryParameter)) (cfg : option QueryJobConfig)
    (w : world St) :
  convert_params params = Ok ps →
  set_job_config lib (merged_options ps job_configs) = Ok cfg →
  query client lib sql params job_configs w
  = let log := calls w ++ [CallQuery sql cfg] in
    match client_query client sql cfg (cstate w) with
    | (Raises e, s1) => (Raise (ClientError e), {| cstate := s1; calls := log |})
    | (Returns job, s1) =>
        let '(r, s2) := result job s1 in
        (from_client r, {| cstate := s2; calls := log |})
    end.
Proof.
  intros Hc Hcfg. rewrite (query_converted client lib _ _ _ _ w Hc), Hcfg, lift_ok.
  unfold mbind, M_bind, call_client, wait_result.
  destruct (client_query client sql cfg (cstate w)) as [[job|e] s1]; simpl; [|done].
  by destruct (result job s1) as [r s2].
Qed.

End QueryRuns.

(** X8.  When the parameters convert, the library takes the merged
    options, the client accepts the query and the job completes, [query]
    returns the very rows the job's [result] gave, and the client's state
    is the one the job left. *)
Theorem query_returns_job_result {St} (client : Client St) (lib : Library) (sql : string)
    (params : pyval) (job_configs : gmap string option_value)
    (ps : option (list ScalarQueryParameter))
    (w : world St) (job : QueryJob St) (rows : pyval) (s1 s2 : St) :
  convert_params params = Ok ps →
  accepted lib (merged_options ps job_configs) →
  client_query client sql (configuration_of (merged_options ps job_configs)) (cstate w)
  = (Returns job, s1) →
  result job s1 = (Returns rows, s2) →
  (query client lib sql params job_configs w).1 = Ok rows ∧
  cstate (query client lib sql params job_configs w).2 = s2.
Proof.
  intros Hc Ha Hq Hr.
  rewrite (query_run client lib _ _ _ _ _ w Hc (set_job_config_accepted lib _ Ha)).
  cbv zeta. by rewrite Hq, Hr.
Qed.

Lemma query_returns_job_result_witness :
  convert_params VNone = Ok None ∧
  accepted Mock.library
    (merged_options None {[ "write_disposition" := OptValue (VStr "WRITE_TRUNCATE") ]}) ∧
  (query (Mock.client (VStr "result") VNone) Mock.library "SELECT 1" VNone
     {[ "write_disposition" := OptValue (VStr "WRITE_TRUNCATE") ]} Mock.start).1
  = Ok (VStr "result").
Proof.
  assert (accepted Mock.library
            (merged_options None {[ "write_disposition" := OptValue (VStr "WRITE_TRUNCATE") ]}))
    as Ha by (intros _; reflexivity).
  split_and!; [reflexivity | exact Ha |].
  exact (proj1 (query_returns_job_result (Mock.client (VStr "result") VNone) Mock.library
                  "SELECT 1" VNone
                  {[ "write_disposition" := OptValue (VStr "WRITE_TRUNCATE") ]} None
                  Mock.start (Mock.job (VStr "result")) (VStr "result")
                  1%nat 2%nat eq_refl Ha eq_refl eq_refl)).
Defined.

(** X9.  When the parameters convert and the library takes the merged
    options but the client refuses the query, [query] raises the client's
    own error after that single call, and the job's [result] is never
    awaited: the client's state is the one the refusal left. *)
Theorem query_propagates_client_error {St} (client : Client St) (lib : Library)
    (sql : string) (params : pyval) (job_configs : gmap string option_value)
    (ps : option (list ScalarQueryParameter)) (w : world St) (e : pyval) (s1 : St) :
  convert_params params = Ok ps →
  accepted lib (merged_options ps job_configs) →
  client_query client sql (configuration_of (merged_options ps job_configs)) (cstate w)
  = (Raises e, s1) →
  query client lib sql params job_configs w
  = (Raise (ClientError e),
     {| cstate := s1;
        calls := calls w
                 ++ [CallQuery sql (configuration_of (merged_options ps job_configs))] |}).
Proof.
  intros Hc Ha Hq.
  rewrite (query_run client lib _ _ _ _ _ w Hc (set_job_config_accepted lib _ Ha)).
  cbv zeta. by rewrite Hq.
Qed.

Lemma query_propagates_client_error_witness :
  convert_params VNone = Ok None ∧
  accepted Mock.library (merged_options None ∅) ∧
  query (failing_client (VStr "Forbidden")) Mock.library "SELECT 1" VNone ∅ Mock.start
  = (Raise (ClientError (VStr "Forbidden")),
     {| cstate := 1%nat; calls := [CallQuery "SELECT 1" None] |}).
Proof.
  split_and!; [reflexivity | exact (accepted_empty Mock.library) |].
  exact (query_propagates_client_error (failing_client (VStr "Forbidden")) Mock.library
           "SELECT 1" VNone ∅ None Mock.start (VStr "Forbidden") 1%nat eq_refl
           (accepted_empty Mock.library) eq_refl).
Defined.



(** ** More on reading one value *)

(** X10.  [get_one_result] never raises [IndexError], whatever it is
    given: the subscript is only taken on a truthy row, and a row that
    could raise it is empty, hence falsy. *)
Theorem get_one_result_no_index_error (query_res : pyval) :
  get_one_result query_res ≠ Raise IndexError.
Proof.
  unfold get_one_result, py_next_or_none.
  destruct (py_iter query_res) as [[|row rest]|e] eqn:Hi; simpl.
  - done.
  - destruct (truthy row) eqn:Ht; [|done].
    destruct row as [| | | [|c s] | [|y l] | [|y l] |]; done.
  - destruct query_res; inversion Hi; done.
Qed.

(** X11.  [get_one_result] looks at the first row only: the rows after
    it never change the answer, nor whether there is one. *)
Theorem get_one_result_first_row_only (query_res row : pyval) (rest : list pyval) :
  py_iter query_res = Ok (row :: rest) →
  get_one_result query_res = get_one_result (VList [row]).
Proof.
  intros Hi. by rewrite (get_one_result_row _ _ _ Hi), (get_one_result_row (VList [row]) row []).
Qed.

Lemma get_one_result_first_row_only_witness :
  py_iter (VTuple [VTuple [VInt 3]; VInt 9]) = Ok [VTuple [VInt 3]; VInt 9] ∧
  get_one_result (VTuple [VTuple [VInt 3]; VInt 9]) = get_one_result (VList [VTuple [VInt 3]]).
Proof.
  split; [reflexivity |].
  exact (get_one_result_first_row_only (VTuple [VTuple [VInt 3]; VInt 9]) (VTuple [VInt 3])
           [VInt 9] eq_refl).
Defined.

(** ** More on the last identifier *)

(** X12.  Whatever the client answers, [get_last_id] makes exactly one
    call on it: the unfiltered [MAX(Id)] select on the table, with no
    configuration. *)
Theorem get_last_id_one_call {St} (client : Client St) (lib : Library) (destination_table : string)
    (w : world St) :
  calls (get_last_id client lib destination_table w).2
  = calls w ++ [CallQuery ("SELECT MAX(Id) FROM `" +:+ destination_table +:+ "`;") None].
Proof.
  pose proof (select_falsy_calls client lib destination_table "MAX(Id)" VNone ∅ w eq_refl
                (accepted_empty lib)) as Hcalls.
  rewrite configuration_of_empty in Hcalls.
  unfold get_last_id. unfold mbind at 1. unfold M_bind.
  destruct (select client lib destination_table "MAX(Id)" VNone ∅ w) as [[last_id|e] w1];
    [|done].
  unfold mbind, M_bind, lift. by destruct (get_one_result last_id).
Qed.

(** X13.  [get_last_id] never returns [None]: when it returns, the value
    is either truthy or the integer [0], so any falsy value the select
    produced (no row, [None], an empty text, [False]) has become [0]. *)
Theorem get_last_id_never_none {St} (client : Client St) (lib : Library)
    (destination_table : string)
    (w w' : world St) (v : pyval) :
  get_last_id client lib destination_table w = (Ok v, w') →
  v ≠ VNone ∧ (v = VInt 0 ∨ truthy v = true).
Proof.
  unfold get_last_id. unfold mbind at 1. unfold M_bind.
  destruct (select client lib destination_table "MAX(Id)" VNone ∅ w) as [[last_id|e] w1];
    [|done].
  unfold mbind, M_bind, lift. destruct (get_one_result last_id) as [one|e]; [|done].
  intros [= <- _]. unfold py_or.
  destruct (truthy one) eqn:Ht; [|by split; [|left]].
  split; [by intros -> | by right].
Qed.

Lemma get_last_id_never_none_witness :
  get_last_id (Mock.client (VList [VTuple [VStr ""]]) VNone) Mock.library "dataset.table" Mock.start
  = (Ok (VInt 0),
     {| cstate := 2%nat; calls := [CallQuery "SELECT MAX(Id) FROM `dataset.table`;" None] |}) ∧
  VInt 0 ≠ VNone.
Proof.
  split; [reflexivity |].
  exact (proj1 (get_last_id_never_none (Mock.client (VList [VTuple [VStr ""]]) VNone) Mock.library
                  "dataset.table" Mock.start _ (VInt 0) eq_refl)).
Defined.

(** ** Looking up a service item *)

(** A select over descriptors, when the library takes the completed
    options, makes one call: the [WHERE] text, and the parameters bound
    from the descriptors. *)
Lemma select_bound_calls {St} (client : Client St) (lib : Library) (table sel : string)
    (cols : list pyval) (names : list string) (ps : list ScalarQueryParameter)
    (job_configs : gmap string option_value) (w : world St) :
  cols ≠ [] → Forall2 has_name cols names → Forall2 bound_from cols ps →
  config_error lib (<["query_parameters" := OptParameters ps]> job_configs) = None →
  generate_select_sql table sel (VList cols) = Ok (select_text table sel names) ∧
  convert_params (VList cols) = Ok (Some ps) ∧
  calls (select client lib table sel (VList cols) job_configs w).2
  = calls w ++ [CallQuery (select_text table sel names)
                  (Some {| properties :=
                             <["query_parameters" := OptParameters ps]> job_configs |})].
Proof.
  intros Hne Hnames Hb Ha.
  assert (truthy (VList cols) = true) as Ht by (by destruct cols).
  pose proof (convert_params_bound (VList cols) cols ps Ht eq_refl Hb) as Hc.
  assert (generate_select_sql table sel (VList cols) = Ok (select_text table sel names))
    as Hsql.
  { unfold generate_select_sql, select_text.
    replace (isinstance_list (VList cols) && truthy (VList cols)) with true
      by (by rewrite Ht).
    simpl py_iter. change (Ok cols ≫= ?k) with (k cols). cbv beta.
    rewrite (filter_terms _ _ Hnames). change (Ok ?x ≫= ?k) with (k x). cbv beta.
    destruct Hnames as [|col n cols names _ _]; [done |].
    rewrite join_terms. unfold where_clause, mret, outcome_ret. f_equal.
    by rewrite !append_assoc. }
  split_and!; [done | done |].
  unfold select. rewrite Hsql, lift_ok.
  by apply (query_calls client lib _ _ job_configs _ _ w Hc), (set_job_config_insert lib).
Qed.

(** The library takes the one parameter [get_service_item] binds. *)
Lemma item_options_taken (lib : Library) (item : string) :
  config_error lib
    (<["query_parameters" :=
         OptParameters [{| name := VStr "item_name"; type_ := VStr "STRING";
                           value := VStr item |}]]> ∅)
  = None.
Proof. rewrite insert_empty. apply config_text_parameter. Qed.

Lemma item_filter (item : string) :
  [VDict [("name", VStr "item_name"); ("type", VStr "STRING"); ("value", VStr item)]] ≠ [] ∧
  Forall2 has_name
    [VDict [("name", VStr "item_name"); ("type", VStr "STRING"); ("value", VStr item)]]
    ["item_name"] ∧
  Forall2 bound_from
    [VDict [("name", VStr "item_name"); ("type", VStr "STRING"); ("value", VStr item)]]
    [{| name := VStr "item_name"; type_ := VStr "STRING"; value := VStr item |}].
Proof.
  split_and!; [done | | by repeat constructor].
  repeat constructor. by eexists.
Qed.

Lemma item_select_text (item_table : string) :
  select_text item_table "item_value" ["item_name"]
  = "SELECT item_value FROM `" +:+ item_table +:+ "` WHERE item_name = @item_name;".
Proof.
  unfold select_text. by simpl.
Qed.

(** X14.  Whatever the item and whatever the client answers,
    [get_service_item] makes exactly one call on the client; its text
    mentions the table but not the item, which travels only as the value
    of the single bound parameter [item_name] of type [STRING]. *)
Theorem get_service_item_call {St} (client : Client St) (lib : Library) (item_table item : string)
    (w : world St) :
  calls (get_service_item client lib item_table item w).2
  = calls w
    ++ [CallQuery
          ("SELECT item_value FROM `" +:+ item_table +:+ "` WHERE item_name = @item_name;")
          (Some {| properties :=
                     {[ "query_parameters" :=
                          OptParameters [{| name := VStr "item_name";
                                            type_ := VStr "STRING";
                                            value := VStr item |}] ]} |})].
Proof.
  destruct (item_filter item) as (Hne & Hn & Hb).
  destruct (select_bound_calls client lib item_table "item_value" _ _ _ ∅ w Hne Hn Hb
              (item_options_taken lib item)) as (_ & _ & Hcalls).
  rewrite item_select_text, insert_empty in Hcalls.
  unfold get_service_item. unfold mbind, M_bind.
  destruct (select client lib item_table "item_value" _ ∅ w) as [[res|e] w1]; [|done].
  unfold lift. by destruct (get_one_result res).
Qed.

(** X15.  When the client accepts the lookup and the job completes,
    [get_service_item] returns what [get_one_result] makes of the rows:
    the first column of the first row, or [None] when there is none. *)
Theorem get_service_item_result {St} (client : Client St) (lib : Library) (item_table item : string)
    (w : world St) (job : QueryJob St) (rows : pyval) (s1 s2 : St) :
  client_query client
    ("SELECT item_value FROM `" +:+ item_table +:+ "` WHERE item_name = @item_name;")
    (Some {| properties :=
               {[ "query_parameters" :=
                    OptParameters [{| name := VStr "item_name"; type_ := VStr "STRING";
                                      value := VStr item |}] ]} |})
    (cstate w)
  = (Returns job, s1) →
  result job s1 = (Returns rows, s2) →
  (get_service_item client lib item_table item w).1 = get_one_result rows.
Proof.
  intros Hq Hr.
  destruct (item_filter item) as (Hne & Hn & Hb).
  destruct (select_bound_calls client lib item_table "item_value" _ _ _ ∅ w Hne Hn Hb
              (item_options_taken lib item)) as (Hsql & Hc & _).
  unfold get_service_item. unfold mbind at 1. unfold M_bind.
  unfold select.
  rewrite Hsql, lift_ok,
    (query_run client lib _ _ _ _ _ w Hc
       (set_job_config_insert lib _ _ _ (item_options_taken lib item))).
  cbv zeta. rewrite insert_empty, item_select_text, Hq, Hr.
  simpl. unfold lift. by destruct (get_one_result rows).
Qed.

Lemma get_service_item_result_witness :
  (get_service_item (Mock.client (VList [VTuple [VStr "v"]]) VNone) Mock.library
     "dataset.items" "key"
     Mock.start).1
  = Ok (VStr "v").
Proof.
  exact (get_service_item_result (Mock.client (VList [VTuple [VStr "v"]]) VNone) Mock.library
           "dataset.items" "key" Mock.start (Mock.job (VList [VTuple [VStr "v"]]))
           (VList [VTuple [VStr "v"]]) 1%nat 2%nat eq_refl eq_refl).
Defined.

(** ** More on inserts *)

(** X16.  For every insert of non-empty rows, the table is looked up
    first, by the name given; the rows are handed to the client only if
    the lookup returned, and then with the handle it returned and the
    data, field selection and options exactly as the caller gave them.
    No other call is made, whether [insert] ends by raising or not. *)
Theorem insert_call_order {St} (client : Client St) (destination_table : string)
    (data selected_fields : pyval) (kwargs : gmap string pyval) (w : world St) :
  truthy data = true →
  calls (insert client destination_table data selected_fields kwargs w).2
  = calls w
    ++ CallGetTable destination_table
       :: match client_get_table client destination_table (cstate w) with
          | (Returns table, _) => [CallInsertRows table data selected_fields kwargs]
          | (Raises _, _) => []
          end.
Proof.
  intros Hd. rewrite (insert_run client _ _ _ _ w Hd).
  destruct (client_get_table client destination_table (cstate w)) as [[table|e] s1];
    [|done].
  cbv zeta.
  destruct (client_insert_rows client table data selected_fields kwargs s1) as [[res|e] s2];
    simpl; by rewrite <- app_assoc.
Qed.

Lemma insert_call_order_witness :
  truthy (VList [VDict [("column1", VStr "value1")]]) = true ∧
  calls (insert (Mock.client VNone (VList [VStr "error"])) "dataset.table"
           (VList [VDict [("column1", VStr "value1")]]) VNone ∅ Mock.start).2
  = [CallGetTable "dataset.table";
     CallInsertRows (VStr "dataset.table") (VList [VDict [("column1", VStr "value1")]])
       VNone ∅].
Proof.
  split; [reflexivity |].
  exact (insert_call_order (Mock.client VNone (VList [VStr "error"])) "dataset.table"
           (VList [VDict [("column1", VStr "value1")]]) VNone ∅ Mock.start eq_refl).
Defined.

(** X17.  When the table lookup fails, [insert] raises the client's own
    error, not a [RuntimeError], and the rows are never sent: the log
    gains the lookup alone. *)
Theorem insert_table_error {St} (client : Client St) (destination_table : string)
    (data selected_fields : pyval) (kwargs : gmap string pyval) (w : world St)
    (e : pyval) (s1 : St) :
  truthy data = true →
  client_get_table client destination_table (cstate w) = (Raises e, s1) →
  insert client destination_table data selected_fields kwargs w
  = (Raise (ClientError e),
     {| cstate := s1; calls := calls w ++ [CallGetTable destination_table] |}).
Proof. intros Hd Ht. by rewrite (insert_run client _ _ _ _ w Hd), Ht. Qed.

Lemma insert_table_error_witness :
  truthy (VList [VDict [("column1", VStr "value1")]]) = true ∧
  insert (failing_client (VStr "NotFound")) "dataset.missing"
    (VList [VDict [("column1", VStr "value1")]]) VNone ∅ Mock.start
  = (Raise (ClientError (VStr "NotFound")),
     {| cstate := 1%nat; calls := [CallGetTable "dataset.missing"] |}).
Proof.
  split; [reflexivity |].
  exact (insert_table_error (failing_client (VStr "NotFound")) "dataset.missing"
           (VList [VDict [("column1", VStr "value1")]]) VNone ∅ Mock.start
           (VStr "NotFound") 1%nat eq_refl eq_refl).
Defined.

(** X18.  When [insert] raises its [RuntimeError], the rows have already
    been handed to the client: the log ends with the row insertion and the
    client's state is the one that insertion left.  Nothing is undone. *)
Theorem insert_error_after_rows_sent {St} (client : Client St) (destination_table : string)
    (data selected_fields : pyval) (kwargs : gmap string pyval) (w w' : world St)
    (errors : pyval) :
  truthy data = true →
  insert client destination_table data selected_fields kwargs w
  = (Raise (RuntimeError errors), w') →
  ∃ table s1,
    client_get_table client destination_table (cstate w) = (Returns table, s1) ∧
    client_insert_rows client table data selected_fields kwargs s1
    = (Returns errors, cstate w') ∧
    calls w' = calls w ++ [CallGetTable destination_table;
                           CallInsertRows table data selected_fields kwargs].
Proof.
  intros Hd. rewrite (insert_run client _ _ _ _ w Hd).
  destruct (client_get_table client destination_table (cstate w)) as [[table|e] s1];
    [|done].
  cbv zeta.
  destruct (client_insert_rows client table data selected_fields kwargs s1)
    as [[res|e] s2] eqn:Hi; [|done].
  destruct (truthy res); [|done].
  intros [= -> <-]. exists table, s1. simpl. by rewrite <- app_assoc.
Qed.

Lemma insert_error_after_rows_sent_witness :
  truthy (VList [VDict [("column1", VStr "value1")]]) = true ∧
  ∃ table s1,
    client_get_table (Mock.client VNone (VList [VStr "error"])) "dataset.table" 0%nat
    = (Returns table, s1) ∧
    client_insert_rows (Mock.client VNone (VList [VStr "error"])) table
      (VList [VDict [("column1", VStr "value1")]]) VNone ∅ s1
    = (Returns (VList [VStr "error"]), 2%nat).
Proof.
  split; [reflexivity |].
  destruct (insert_error_after_rows_sent (Mock.client VNone (VList [VStr "error"]))
              "dataset.table" (VList [VDict [("column1", VStr "value1")]]) VNone ∅
              Mock.start
              {| cstate := 2%nat;
                 calls := [CallGetTable "dataset.table";
                           CallInsertRows (VStr "dataset.table")
                             (VList [VDict [("column1", VStr "value1")]]) VNone ∅] |}
              (VList [VStr "error"]) eq_refl eq_refl)
    as (table & s1 & Ht & Hi & _).
  exists table, s1. split; [exact Ht | exact Hi].
Defined.

(** ** The client factory *)

(** X19.  [set_bigquery_client] replaces the scopes by the three
    defaults only when they are [None]: any other value, an empty list
    included, reaches credential resolution as it is.  Resolution is
    asked exactly once, and the client is constructed only when it
    succeeded, from the credentials and the project it returned. *)
Theorem set_bigquery_client_calls {St} (env : Factory.Environment St) (scopes : pyval)
    (s : St) (log : list Factory.external_call) :
  ∃ used,
    (scopes = VNone → used = Factory.default_scopes) ∧
    (scopes ≠ VNone → used = scopes) ∧
    (Factory.set_bigquery_client env scopes s log).2
    = log
      ++ Factory.CallAuthDefault used
         :: match Factory.auth_default env used s with
            | (Returns (credentials, project), _) =>
                [Factory.CallClient credentials project]
            | (Raises _, _) => []
            end.
Proof.
  exists (match scopes with VNone => Factory.default_scopes | _ => scopes end).
  split_and!.
  - by intros ->.
  - by destruct scopes.
  - unfold Factory.set_bigquery_client.
    destruct (Factory.auth_default env _ s) as [[[credentials project]|e] s1]; [|done].
    destruct (Factory.new_client env credentials project s1) as [r s2]. simpl.
    by rewrite <- app_assoc.
Qed.

Lemma set_bigquery_client_calls_witness :
  VList [] ≠ VNone ∧
  (Factory.set_bigquery_client (ambient true) (VList []) 0%nat []).2
  = [Factory.CallAuthDefault (VList []);
     Factory.CallClient (VStr "credentials") (VStr "project")].
Proof.
  split; [discriminate |].
  destruct (set_bigquery_client_calls (ambient true) (VList []) 0%nat [])
    as (used & _ & Hused & Hlog).
  rewrite Hlog, (Hused ltac:(discriminate)). reflexivity.
Defined.

(** X20.  When credential resolution fails, [set_bigquery_client]
    raises that failure and no client is constructed. *)
Theorem set_bigquery_client_no_credentials {St} (env : Factory.Environment St)
    (scopes : pyval) (s s1 : St) (log : list Factory.external_call) (e : pyval) :
  Factory.auth_default env
    (match scopes with VNone => Factory.default_scopes | _ => scopes end) s
  = (Raises e, s1) →
  (Factory.set_bigquery_client env scopes s log).1 = (Raise (ClientError e), s1) ∧
  Forall (λ c, ∀ credentials project, c ≠ Factory.CallClient credentials project)
    (drop (length log) (Factory.set_bigquery_client env scopes s log).2).
Proof.
  intros Ha. unfold Factory.set_bigquery_client. rewrite Ha. simpl.
  split; [done |]. rewrite drop_app_length. by repeat constructor.
Qed.

Lemma set_bigquery_client_no_credentials_witness :
  Factory.auth_default (ambient false) Factory.default_scopes 0%nat
  = (Raises (VStr "DefaultCredentialsError"), 1%nat) ∧
  (Factory.set_bigquery_client (ambient false) VNone 0%nat []).1
  = (Raise (ClientError (VStr "DefaultCredentialsError")), 1%nat).
Proof.
  split; [reflexivity |].
  exact (proj1 (set_bigquery_client_no_credentials (ambient false) VNone 0%nat 1%nat []
                  (VStr "DefaultCredentialsError") eq_refl)).
Defined.
